(** * Upload-to-generation gateway (src/index.js): model and properties

    The gateway of [src/index.js] registers four Express routes.  Three of
    them receive an uploaded file (stored on disk by the upload middleware),
    turn it into an inline base64 part, hand it with a prompt to the
    generation backend, and remove the stored file again.

    Definitions:
    - [Base64]: the encoding performed by [Buffer.toString("base64")]
      (RFC 4648, with padding) and the matching decoder;
    - [Js]: the effects of a handler body, as a small state-and-exception
      monad over the file store and a log of the observable calls;
    - [Gateway]: the functions and handlers of [src/index.js], each
      handler transcribed from its own block, and the one parametric
      handler they are compared with;
    - [Samples]: concrete files, stores and backends;
    - [Observe]: further projections of a log and the classification of
      the runs of a media handler.

    Properties: [Base64Facts] (the round trip), [GatewayFacts] (the runs
    of the handlers, path by path, and what follows from them) and
    [HandlerFacts] (what holds of every run). *)

From Stdlib Require Import NArith Ascii String Lia.
From Stdlib Require Strings.Byte.
From stdpp Require Import base option list gmap strings.

Local Open Scope string_scope.
Local Open Scope list_scope.

Abbreviation byte := Byte.byte.

(** ** Base64 *)

Module Base64.

(** The 64 digits of the standard alphabet, in value order. *)
Definition alphabet : list ascii :=
  list_ascii_of_string
    "ABCDEFGHIJKLMNOPQRSTUVWXYZabcdefghijklmnopqrstuvwxyz0123456789+/".

Definition pad : ascii := "="%char.

(** Digit of a 6-bit value. *)
Definition digit (n : N) : ascii := nth (N.to_nat n) alphabet pad.

Fixpoint index_from (c : ascii) (l : list ascii) (i : N) : option N :=
  match l with
  | [] => None
  | x :: l' => if Ascii.eqb c x then Some i else index_from c l' (N.succ i)
  end.

(** Value of a digit; [None] for a character outside the alphabet. *)
Definition value (c : ascii) : option N := index_from c alphabet 0.

(** The four 6-bit values of a group of three octets.  [x / 4] is
    [x >> 2], [x mod 4 * 16] is [(x & 3) << 4], and so on; the parts
    that are added never overlap. *)
Definition sextet1 (x : N) : N := (x / 4)%N.
Definition sextet2 (x y : N) : N := (x mod 4 * 16 + y / 16)%N.
Definition sextet3 (y z : N) : N := (y mod 16 * 4 + z / 64)%N.
Definition sextet4 (z : N) : N := (z mod 64)%N.

(** [encode]: three octets give four digits; a final group of one or
    two octets is zero-filled and padded with [=]. *)
Fixpoint encode (bs : list byte) : string :=
  match bs with
  | [] => ""
  | [a] =>
      let x := Byte.to_N a in
      String (digit (sextet1 x)) (String (digit (sextet2 x 0)) "==")
  | [a; b] =>
      let x := Byte.to_N a in
      let y := Byte.to_N b in
      String (digit (sextet1 x)) (String (digit (sextet2 x y))
        (String (digit (sextet3 y 0)) "="))
  | a :: b :: c :: rest =>
      let x := Byte.to_N a in
      let y := Byte.to_N b in
      let z := Byte.to_N c in
      String (digit (sextet1 x)) (String (digit (sextet2 x y))
        (String (digit (sextet3 y z)) (String (digit (sextet4 z))
          (encode rest))))
  end.

(** The octets of a group, from its 6-bit values. *)
Definition octet1 (v1 v2 : N) : option byte := Byte.of_N (v1 * 4 + v2 / 16).
Definition octet2 (v2 v3 : N) : option byte :=
  Byte.of_N (v2 mod 16 * 16 + v3 / 4).
Definition octet3 (v3 v4 : N) : option byte :=
  Byte.of_N (v3 mod 4 * 64 + v4).

Fixpoint decode_chars (cs : list ascii) : option (list byte) :=
  match cs with
  | [] => Some []
  | c1 :: c2 :: c3 :: c4 :: rest =>
      if Ascii.eqb c4 pad then
        match rest with
        | [] =>
            v1 ← value c1; v2 ← value c2;
            a ← octet1 v1 v2;
            if Ascii.eqb c3 pad then Some [a]
            else v3 ← value c3; b ← octet2 v2 v3; Some [a; b]
        | _ :: _ => None
        end
      else
        v1 ← value c1; v2 ← value c2; v3 ← value c3; v4 ← value c4;
        a ← octet1 v1 v2; b ← octet2 v2 v3; c ← octet3 v3 v4;
        tl ← decode_chars rest;
        Some (a :: b :: c :: tl)
  | _ => None
  end.

(** A check of all 6-bit values. *)
Definition below64 (check : N → bool) : bool :=
  forallb (fun i => check (N.of_nat i)) (seq 0 64).

(** [decode]: strict decoding of padded base64 text. *)
Definition decode (s : string) : option (list byte) :=
  decode_chars (list_ascii_of_string s).

End Base64.

(** ** Effects of a handler body *)

Module Js.

(** A thrown value.  Everything thrown in the handlers is an [Error]
    object, and the handlers read nothing of it but [message]. *)
Record Error := mkError { message : string }.

(** An element of the array given to [model.generateContent]: the prompt
    string, or the object [{ inlineData: { data, mimeType } }]. *)
Inductive Part :=
| Text (s : string)
| InlineData (data : string) (mimeType : string).

(** The argument of [model.generateContent]: the bare [prompt] of
    /generate-text (which is [undefined] when the body has none), or an
    array of parts. *)
Inductive GenRequest :=
| Prompt (p : option string)
| Parts (ps : list Part).

(** [response.text()] returns the text or throws. *)
Inductive TextResult :=
| Returns (text : string)
| Throws (e : Error).

(** [await model.generateContent(..)] followed by
    [await result.response]: rejected, or resolved to a response. *)
Inductive Answer :=
| Rejected (e : Error)
| Resolved (response : TextResult).

(** The JSON bodies the handlers send: [{ text }] and [{ error }]. *)
Inductive Body :=
| TextBody (text : string)
| ErrorBody (error : string).

(** The observable calls of a handler, in program order. *)
Inductive Event :=
| EvRead (path : string)
| EvGenerate (r : GenRequest)
| EvExists (path : string)
| EvUnlink (path : string)
| EvRespond (status : nat) (body : Body).

(** The store behind [fs]: the content of each existing path. *)
Abbreviation Files := (gmap string (list byte)).

Record World := mkWorld { files : Files; log : list Event }.

(** The backend is outside the program.  While the handler is suspended
    in its [await], the rest of the system runs: the backend yields its
    answer together with the file store as it is when the handler
    resumes.  Between two suspensions the handler runs uninterrupted,
    so the store changes there only by the handler's own calls. *)
Definition Backend : Type := GenRequest → Files → Files * Answer.

Inductive Completion (A : Type) :=
| Normal (a : A)
| Thrown (e : Error).
Arguments Normal {A} a.
Arguments Thrown {A} e.

Definition M (A : Type) : Type := World → Completion A * World.

Definition ret {A} (a : A) : M A := fun w => (Normal a, w).

Definition bind {A B} (m : M A) (k : A → M B) : M B :=
  fun w =>
    match m w with
    | (Normal a, w') => k a w'
    | (Thrown e, w') => (Thrown e, w')
    end.

Definition throw {A} (e : Error) : M A := fun w => (Thrown e, w).

(** [try { body } catch (error) { handler }] *)
Definition tryCatch {A} (body : M A) (handler : Error → M A) : M A :=
  fun w =>
    match body w with
    | (Normal a, w') => (Normal a, w')
    | (Thrown e, w') => handler e w'
    end.

Definition emit (ev : Event) : M unit :=
  fun w => (Normal tt, mkWorld (files w) (log w ++ [ev])).

Definition enoent (syscall path : string) : Error :=
  mkError ("ENOENT: no such file or directory, " +:+ syscall +:+ " '"
           +:+ path +:+ "'").

(** [fs.readFileSync(path)] *)
Definition readFileSync (path : string) : M (list byte) :=
  bind (emit (EvRead path)) (fun _ w =>
    match files w !! path with
    | Some content => (Normal content, w)
    | None => (Thrown (enoent "open" path), w)
    end).

(** [fs.existsSync(path)] *)
Definition existsSync (path : string) : M bool :=
  bind (emit (EvExists path)) (fun _ w =>
    (Normal (match files w !! path with Some _ => true | None => false end),
     w)).

(** [fs.unlinkSync(path)] *)
Definition unlinkSync (path : string) : M unit :=
  bind (emit (EvUnlink path)) (fun _ w =>
    match files w !! path with
    | Some _ => (Normal tt, mkWorld (delete path (files w)) (log w))
    | None => (Thrown (enoent "unlink" path), w)
    end).

(** [res.status(status).json(body)]; [res.json(body)] is status 200. *)
Definition res_json (status : nat) (body : Body) : M unit :=
  emit (EvRespond status body).

(** [await model.generateContent(r)] and [await result.response]. *)
Definition generateContent (backend : Backend) (r : GenRequest)
  : M TextResult :=
  bind (emit (EvGenerate r)) (fun _ w =>
    match backend r (files w) with
    | (files', Rejected e) => (Thrown e, mkWorld files' (log w))
    | (files', Resolved response) => (Normal response, mkWorld files' (log w))
    end).

(** [response.text()] *)
Definition text (response : TextResult) : M string :=
  match response with
  | Returns t => ret t
  | Throws e => throw e
  end.

(** [x || d] on a value that is [undefined] or a string: the empty
    string and [undefined] are falsy. *)
Definition or_default (x : option string) (d : string) : string :=
  match x with
  | Some s => if String.eqb s "" then d else s
  | None => d
  end.

(** The error of an answer the handler cannot use: the call was
    rejected, or [response.text()] throws. *)
Definition failure (a : Answer) : option Error :=
  match a with
  | Rejected e => Some e
  | Resolved (Throws e) => Some e
  | Resolved (Returns _) => None
  end.

#[global] Instance M_ret : MRet M := @ret.
#[global] Instance M_bind : MBind M := fun A B k m => bind m k.

(** Running a handler on a store, with an empty log. *)
Definition run {A} (m : M A) (fs : Files) : Completion A * World :=
  m (mkWorld fs []).

(** The events logged between two worlds of one run. *)
Definition appended (w w' : World) : list Event :=
  drop (length (log w)) (log w').

(** Projections of a log. *)
Definition responses (l : list Event) : list (nat * Body) :=
  omap (fun ev => match ev with EvRespond s b => Some (s, b) | _ => None end) l.

Definition generate_calls (l : list Event) : list GenRequest :=
  omap (fun ev => match ev with EvGenerate r => Some r | _ => None end) l.

Definition unlink_calls (l : list Event) : list string :=
  omap (fun ev => match ev with EvUnlink p => Some p | _ => None end) l.

End Js.

(** ** The gateway *)

Module Gateway.
Import Js.

(** [req.file] as the upload middleware sets it: the stored file's path
    and the MIME type the client declared. *)
Record File := mkFile { path : string; mimetype : string }.

(** What a handler reads of [req]: [req.file] ([undefined] when no file
    was attached) and [req.body.prompt] ([undefined] or a string). *)
Record Request := mkRequest { file : option File; prompt : option string }.

Section Handlers.

(** [model], the client of the generation backend. *)
Variable model : Backend.

Definition fileToGenerativePart (filePath mimeType : string) : M Part :=
  content ← readFileSync filePath;
  mret (InlineData (Base64.encode content) mimeType).

(** [app.post('/generate-text', ..)], lines 37-48.  The argument is the
    request as the text route receives it: [None] when its [req.body] is
    [undefined] (no body parser filled it), and else what the handler can
    read of it.  Line 38, [const { prompt } = req.body], stands before the
    [try]: on an undefined body it throws a TypeError that nothing
    catches. *)
Definition generateText (parsed : option Request) : M unit :=
  match parsed with
  | None =>
      throw (mkError ("Cannot destructure property 'prompt' of 'req.body'"
                      +:+ " as it is undefined."))
  | Some req =>
      let p := prompt req in
      tryCatch
        (response ← generateContent model (Prompt p);
         t ← text response;
         res_json 200 (TextBody t))
        (fun error => res_json 500 (ErrorBody (message error)))
  end.

(** [app.post('/generate-from-image', upload.single('image'), ..)],
    lines 55-79: the [catch] block, then the handler. *)
Definition generateFromImage_catch (req : Request) (error : Error) : M unit :=
  _ ← match file req with
      | Some f =>
          present ← existsSync (path f);
          if (present : bool) then unlinkSync (path f) else mret tt
      | None => mret tt
      end;
  res_json 500 (ErrorBody (message error)).

Definition generateFromImage (req : Request) : M unit :=
  tryCatch
    (match file req with
     | None => res_json 400 (ErrorBody "No image file uploaded.")
     | Some f =>
         let p := or_default (prompt req) "Describe this image" in
         imagePart ← fileToGenerativePart (path f) (mimetype f);
         response ← generateContent model (Parts [Text p; imagePart]);
         t ← text response;
         _ ← unlinkSync (path f);
         res_json 200 (TextBody t)
     end)
    (generateFromImage_catch req).

(** [app.post('/generate-from-document', upload.single('document'), ..)],
    lines 86-110: the [catch] block, then the handler. *)
Definition generateFromDocument_catch (req : Request) (error : Error) : M unit :=
  _ ← match file req with
      | Some f =>
          present ← existsSync (path f);
          if (present : bool) then unlinkSync (path f) else mret tt
      | None => mret tt
      end;
  res_json 500 (ErrorBody (message error)).

Definition generateFromDocument (req : Request) : M unit :=
  tryCatch
    (match file req with
     | None => res_json 400 (ErrorBody "No document file uploaded.")
     | Some f =>
         let p := or_default (prompt req) "Summarize this document" in
         documentPart ← fileToGenerativePart (path f) (mimetype f);
         response ← generateContent model (Parts [Text p; documentPart]);
         t ← text response;
         _ ← unlinkSync (path f);
         res_json 200 (TextBody t)
     end)
    (generateFromDocument_catch req).

(** [app.post('/generate-from-audio', upload.single('audio'), ..)],
    lines 117-141: the [catch] block, then the handler. *)
Definition generateFromAudio_catch (req : Request) (error : Error) : M unit :=
  _ ← match file req with
      | Some f =>
          present ← existsSync (path f);
          if (present : bool) then unlinkSync (path f) else mret tt
      | None => mret tt
      end;
  res_json 500 (ErrorBody (message error)).

Definition generateFromAudio (req : Request) : M unit :=
  tryCatch
    (match file req with
     | None => res_json 400 (ErrorBody "No audio file uploaded.")
     | Some f =>
         let p := or_default (prompt req) "Transcribe this audio" in
         audioPart ← fileToGenerativePart (path f) (mimetype f);
         response ← generateContent model (Parts [Text p; audioPart]);
         t ← text response;
         _ ← unlinkSync (path f);
         res_json 200 (TextBody t)
     end)
    (generateFromAudio_catch req).

End Handlers.

(** The three media endpoints. *)
Inductive Endpoint := Image | Document | Audio.

Definition handler (model : Backend) (ep : Endpoint) : Request → M unit :=
  match ep with
  | Image => generateFromImage model
  | Document => generateFromDocument model
  | Audio => generateFromAudio model
  end.

Definition handler_catch (ep : Endpoint) : Request → Error → M unit :=
  match ep with
  | Image => generateFromImage_catch
  | Document => generateFromDocument_catch
  | Audio => generateFromAudio_catch
  end.

(** *** The one handler the three are instances of

    What distinguishes a media endpoint: the multipart field its upload
    middleware accepts, the prompt it falls back to, and the message it
    answers with when no file came. *)
Record Media := mkMedia {
  field : string;
  defaultPrompt : string;
  missingFile : string
}.

Definition media (ep : Endpoint) : Media :=
  match ep with
  | Image =>
      mkMedia "image" "Describe this image" "No image file uploaded."
  | Document =>
      mkMedia "document" "Summarize this document"
              "No document file uploaded."
  | Audio =>
      mkMedia "audio" "Transcribe this audio" "No audio file uploaded."
  end.

Definition generateFromMedia_catch (req : Request) (error : Error)
  : M unit :=
  _ ← match file req with
      | Some f =>
          present ← existsSync (path f);
          if (present : bool) then unlinkSync (path f) else mret tt
      | None => mret tt
      end;
  res_json 500 (ErrorBody (message error)).

Definition generateFromMedia (model : Backend) (m : Media) (req : Request)
  : M unit :=
  tryCatch
    (match file req with
     | None => res_json 400 (ErrorBody (missingFile m))
     | Some f =>
         let p := or_default (prompt req) (defaultPrompt m) in
         part ← fileToGenerativePart (path f) (mimetype f);
         response ← generateContent model (Parts [Text p; part]);
         t ← text response;
         _ ← unlinkSync (path f);
         res_json 200 (TextBody t)
     end)
    (generateFromMedia_catch req).

(** The argument a media handler gives to [model.generateContent] for
    a stored file with the given content. *)
Definition mediaCall (m : Media) (req : Request) (f : File)
    (content : list byte) : GenRequest :=
  Parts [Text (or_default (prompt req) (defaultPrompt m));
         InlineData (Base64.encode content) (mimetype f)].

(** *** Routes

    A route runs the upload middleware [upload.single(field)] and then
    the handler.  The middleware belongs to the multer package: it is
    taken as a parameter [single], which from the raw request either
    yields the request the handler sees or fails, in which case the
    handler does not run. *)
Section Routes.

Variable model : Backend.
Variable RawRequest : Type.
Variable single : string → RawRequest → M Request.

Definition route (ep : Endpoint) (raw : RawRequest) : M unit :=
  match ep with
  | Image => req ← single "image" raw; generateFromImage model req
  | Document => req ← single "document" raw; generateFromDocument model req
  | Audio => req ← single "audio" raw; generateFromAudio model req
  end.

Definition mediaRoute (m : Media) (raw : RawRequest) : M unit :=
  req ← single (field m) raw; generateFromMedia model m req.

End Routes.

End Gateway.

(** ** Sample invocations *)

Module Samples.
Import Js Gateway.

Definition photo : File := mkFile "uploads/3f2a" "image/png".
Definition clip : File := mkFile "uploads/9c41" "audio/mpeg".

Definition store : Files :=
  {[ "uploads/3f2a" := [Byte.x4d; Byte.x61; Byte.x6e];
     "uploads/9c41" := [Byte.x00; Byte.xff] ]}.

(** A backend that answers with a text, and one that fails; neither
    touches the store. *)
Definition answering (t : string) : Backend :=
  fun _ fs => (fs, Resolved (Returns t)).

Definition failing (msg : string) : Backend :=
  fun _ fs => (fs, Rejected (mkError msg)).

(** The same backend, while somebody else removes [p] from the store
    before the handler resumes. *)
Definition removing (p : string) (model : Backend) : Backend :=
  fun r fs => let (fs', a) := model r fs in (delete p fs', a).

End Samples.

(** ** Further observations of a run *)

Module Observe.
Import Js Gateway.

(** The paths of the file-system calls in a log. *)
Definition fs_calls (l : list Event) : list string :=
  omap (fun ev => match ev with
                  | EvRead p | EvExists p | EvUnlink p => Some p
                  | _ => None
                  end) l.

Definition read_calls (l : list Event) : list string :=
  omap (fun ev => match ev with EvRead p => Some p | _ => None end) l.

(** The store as a media handler last finds it changed by others: on
    entry when it never reaches the backend call, and else when it resumes
    from that call. *)
Definition resumed (model : Backend) (m : Media) (req : Request)
    (fs : Files) : Files :=
  match file req with
  | Some f =>
      match fs !! path f with
      | Some content => (model (mediaCall m req f content) fs).1
      | None => fs
      end
  | None => fs
  end.

(** The five ways a media handler runs. *)
Inductive MediaRun (model : Backend) (m : Media) (req : Request)
    (fs : Files) : Completion unit * World → Prop :=
| RunNoFile :
    file req = None →
    MediaRun model m req fs
      (Normal tt, mkWorld fs [EvRespond 400 (ErrorBody (missingFile m))])
| RunUnreadable f :
    file req = Some f →
    fs !! path f = None →
    MediaRun model m req fs
      (Normal tt,
       mkWorld fs [EvRead (path f); EvExists (path f);
                   EvRespond 500
                     (ErrorBody (message (enoent "open" (path f))))])
| RunFailedKept f content fs' ans e c :
    file req = Some f →
    fs !! path f = Some content →
    model (mediaCall m req f content) fs = (fs', ans) →
    failure ans = Some e →
    fs' !! path f = Some c →
    MediaRun model m req fs
      (Normal tt,
       mkWorld (delete (path f) fs')
         [EvRead (path f); EvGenerate (mediaCall m req f content);
          EvExists (path f); EvUnlink (path f);
          EvRespond 500 (ErrorBody (message e))])
| RunFailedGone f content fs' ans e :
    file req = Some f →
    fs !! path f = Some content →
    model (mediaCall m req f content) fs = (fs', ans) →
    failure ans = Some e →
    fs' !! path f = None →
    MediaRun model m req fs
      (Normal tt,
       mkWorld fs'
         [EvRead (path f); EvGenerate (mediaCall m req f content);
          EvExists (path f); EvRespond 500 (ErrorBody (message e))])
| RunAnswered f content fs' t c :
    file req = Some f →
    fs !! path f = Some content →
    model (mediaCall m req f content) fs = (fs', Resolved (Returns t)) →
    fs' !! path f = Some c →
    MediaRun model m req fs
      (Normal tt,
       mkWorld (delete (path f) fs')
         [EvRead (path f); EvGenerate (mediaCall m req f content);
          EvUnlink (path f); EvRespond 200 (TextBody t)])
| RunAnsweredGone f content fs' t :
    file req = Some f →
    fs !! path f = Some content →
    model (mediaCall m req f content) fs = (fs', Resolved (Returns t)) →
    fs' !! path f = None →
    MediaRun model m req fs
      (Normal tt,
       mkWorld fs'
         [EvRead (path f); EvGenerate (mediaCall m req f content);
          EvUnlink (path f); EvExists (path f);
          EvRespond 500
            (ErrorBody (message (enoent "unlink" (path f))))]).

End Observe.

(** * Properties *)

(** ** Base64 round trip *)

Module Base64Facts.
Import Base64.

Lemma below64_spec (check : N → bool) :
  below64 check = true → ∀ n, (n < 64)%N → check n = true.
Proof.
  intros Hall n Hn. unfold below64 in Hall.
  rewrite forallb_forall in Hall.
  specialize (Hall (N.to_nat n)).
  rewrite N2Nat.id in Hall. apply Hall.
  apply in_seq. lia.
Qed.

Lemma value_digit n : (n < 64)%N → value (digit n) = Some n.
Proof.
  intros Hn.
  pose proof (below64_spec
    (fun k => match value (digit k) with
              | Some v => N.eqb v k
              | None => false
              end) eq_refl n Hn) as Hk.
  simpl in Hk. destruct (value (digit n)) as [v|]; [|discriminate].
  apply N.eqb_eq in Hk. by subst.
Qed.

Lemma digit_not_pad n : (n < 64)%N → Ascii.eqb (digit n) pad = false.
Proof.
  intros Hn.
  pose proof (below64_spec (fun k => negb (Ascii.eqb (digit k) pad))
                eq_refl n Hn) as Hk.
  simpl in Hk. by apply negb_true_iff in Hk.
Qed.

Ltac euclid :=
  unfold sextet1, sextet2, sextet3, sextet4;
  zify; Z.to_euclidean_division_equations; lia.

Lemma sextet1_lt x : (x < 256)%N → (sextet1 x < 64)%N.
Proof. intros. euclid. Qed.
Lemma sextet2_lt x y : (y < 256)%N → (sextet2 x y < 64)%N.
Proof. intros. euclid. Qed.
Lemma sextet3_lt y z : (z < 256)%N → (sextet3 y z < 64)%N.
Proof. intros. euclid. Qed.
Lemma sextet4_lt z : (sextet4 z < 64)%N.
Proof. euclid. Qed.

Lemma octet1_sextets x y :
  (y < 256)%N → octet1 (sextet1 x) (sextet2 x y) = Byte.of_N x.
Proof. intros. unfold octet1. f_equal. euclid. Qed.

Lemma octet2_sextets x y z :
  (y < 256)%N → (z < 256)%N →
  octet2 (sextet2 x y) (sextet3 y z) = Byte.of_N y.
Proof. intros. unfold octet2. f_equal. euclid. Qed.

Lemma octet3_sextets y z :
  (z < 256)%N → octet3 (sextet3 y z) (sextet4 z) = Byte.of_N z.
Proof. intros. unfold octet3. f_equal. euclid. Qed.

Lemma to_N_lt (b : byte) : (Byte.to_N b < 256)%N.
Proof. pose proof (Byte.to_N_bounded b). lia. Qed.

(** Lists three elements at a time. *)
Lemma list_ind3 {A} (P : list A → Prop) :
  P [] → (∀ a, P [a]) → (∀ a b, P [a; b]) →
  (∀ a b c l, P l → P (a :: b :: c :: l)) →
  ∀ l, P l.
Proof.
  intros H0 H1 H2 H3. fix IH 1.
  intros [|a [|b [|c l]]]; [apply H0 | apply H1 | apply H2 |].
  apply H3, IH.
Qed.

Ltac digits :=
  repeat first
    [ rewrite value_digit by
        first [ apply sextet4_lt
              | apply sextet1_lt, to_N_lt
              | apply sextet2_lt; first [apply to_N_lt | lia]
              | apply sextet3_lt; first [apply to_N_lt | lia] ]
    | rewrite digit_not_pad by
        first [ apply sextet4_lt
              | apply sextet3_lt; first [apply to_N_lt | lia] ] ];
  cbn [mbind option_bind].

Ltac octets :=
  repeat first
    [ rewrite octet1_sextets by first [apply to_N_lt | lia]
    | rewrite octet2_sextets by first [apply to_N_lt | lia]
    | rewrite octet3_sextets by apply to_N_lt
    | rewrite Byte.of_to_N ];
  cbn [mbind option_bind].

Lemma decode_chars_encode (bs : list byte) :
  decode_chars (list_ascii_of_string (encode bs)) = Some bs.
Proof.
  induction bs as [|a|a b|a b c bs IH] using list_ind3;
    cbn [encode list_ascii_of_string decode_chars].
  - reflexivity.
  - change (Ascii.eqb "=" pad) with true. cbn iota.
    digits. octets. reflexivity.
  - change (Ascii.eqb "=" pad) with true. cbn iota.
    digits. octets. digits. octets. reflexivity.
  - digits. octets. digits. octets. rewrite IH. reflexivity.
Qed.

Lemma decode_encode (bs : list byte) : decode (encode bs) = Some bs.
Proof. apply decode_chars_encode. Qed.

Example encode_Man : encode [Byte.x4d; Byte.x61; Byte.x6e] = "TWFu".
Proof. reflexivity. Qed.

Example encode_Ma : encode [Byte.x4d; Byte.x61] = "TWE=".
Proof. reflexivity. Qed.

Example encode_M : encode [Byte.x4d] = "TQ==".
Proof. reflexivity. Qed.

Example decode_rejects_stray : decode "TWE" = None.
Proof. reflexivity. Qed.

End Base64Facts.

(** ** Runs of the media handlers *)

Module GatewayFacts.
Import Js Gateway.

Lemma handler_media model ep req :
  handler model ep req = generateFromMedia model (media ep) req.
Proof. by destruct ep. Qed.

Lemma handler_catch_media ep : handler_catch ep = generateFromMedia_catch.
Proof. by destruct ep. Qed.

Ltac exec :=
  unfold run, generateFromMedia, generateFromMedia_catch, generateText,
    mediaCall, fileToGenerativePart, generateContent, readFileSync,
    existsSync, unlinkSync, res_json, emit, text, tryCatch, mbind, M_bind,
    mret, M_ret, bind, ret, throw in *;
  cbn in *.

Ltac use H := rewrite H; cbn.

(** Membership in an explicit list: as a goal, and as a hypothesis. *)
Ltac member :=
  repeat first [apply list_elem_of_here | apply list_elem_of_further].

Ltac member_in H :=
  repeat (apply elem_of_cons in H as [H|H]; [try discriminate H|]);
  try (apply elem_of_nil in H; destruct H).

Section Paths.

Variables (model : Backend) (m : Media) (req : Request) (fs : Files).

(** No file attached. *)
Lemma run_no_file :
  file req = None →
  run (generateFromMedia model m req) fs
  = (Normal tt, mkWorld fs [EvRespond 400 (ErrorBody (missingFile m))]).
Proof. intros Hf. exec. by use Hf. Qed.

Variable f : File.
Hypothesis Hfile : file req = Some f.

(** The stored file cannot be read. *)
Lemma run_unreadable :
  fs !! path f = None →
  run (generateFromMedia model m req) fs
  = (Normal tt,
     mkWorld fs [EvRead (path f); EvExists (path f);
                 EvRespond 500
                   (ErrorBody (message (enoent "open" (path f))))]).
Proof. intros Hfs. exec. use Hfile. use Hfs. by use Hfs. Qed.

Variables (content : list byte) (fs' : Files) (ans : Answer).
Hypothesis Hread : fs !! path f = Some content.
Hypothesis Hcall : model (mediaCall m req f content) fs = (fs', ans).

(** The backend fails. *)
Lemma run_failed e :
  failure ans = Some e →
  run (generateFromMedia model m req) fs
  = (Normal tt,
     mkWorld (delete (path f) fs')
       ([EvRead (path f); EvGenerate (mediaCall m req f content);
         EvExists (path f)]
        ++ match fs' !! path f with
           | Some _ => [EvUnlink (path f)]
           | None => []
           end
        ++ [EvRespond 500 (ErrorBody (message e))])).
Proof.
  intros He. exec. use Hfile. use Hread. use Hcall.
  destruct ans as [e'|[t|e']]; simplify_eq/=;
    destruct (fs' !! path f) eqn:Hk; cbn; rewrite ?Hk; cbn;
    by rewrite ?(delete_id _ _ Hk).
Qed.

(** The backend answers and the file is still there. *)
Lemma run_answered t c :
  ans = Resolved (Returns t) → fs' !! path f = Some c →
  run (generateFromMedia model m req) fs
  = (Normal tt,
     mkWorld (delete (path f) fs')
       [EvRead (path f); EvGenerate (mediaCall m req f content);
        EvUnlink (path f); EvRespond 200 (TextBody t)]).
Proof.
  intros -> Hk. exec. use Hfile. use Hread. use Hcall. by use Hk.
Qed.

(** The backend answers and the file is gone. *)
Lemma run_answered_gone t :
  ans = Resolved (Returns t) → fs' !! path f = None →
  run (generateFromMedia model m req) fs
  = (Normal tt,
     mkWorld fs'
       [EvRead (path f); EvGenerate (mediaCall m req f content);
        EvUnlink (path f); EvExists (path f);
        EvRespond 500
          (ErrorBody (message (enoent "unlink" (path f))))]).
Proof.
  intros -> Hk. exec. use Hfile. use Hread. use Hcall. use Hk. by use Hk.
Qed.

End Paths.

(** The backend is called once when the stored file can be read, and
    not at all otherwise. *)
Lemma generate_calls_run model m req fs :
  generate_calls (log (run (generateFromMedia model m req) fs).2)
  = match file req with
    | Some f =>
        match fs !! path f with
        | Some content => [mediaCall m req f content]
        | None => []
        end
    | None => []
    end.
Proof.
  destruct (file req) as [f|] eqn:Hf;
    [|by rewrite (run_no_file _ _ _ _ Hf)].
  destruct (fs !! path f) as [content|] eqn:Hfs;
    [|by rewrite (run_unreadable _ _ _ _ _ Hf Hfs)].
  destruct (model (mediaCall m req f content) fs) as [fs' ans] eqn:Hm.
  destruct (failure ans) as [e|] eqn:He.
  { rewrite (run_failed _ _ _ _ _ Hf _ _ _ Hfs Hm _ He). cbn.
    by destruct (fs' !! path f). }
  destruct ans as [e|[t|e]]; try discriminate.
  destruct (fs' !! path f) as [c|] eqn:Hk.
  - by rewrite (run_answered _ _ _ _ _ Hf _ _ _ Hfs Hm _ _ eq_refl Hk).
  - by rewrite (run_answered_gone _ _ _ _ _ Hf _ _ _ Hfs Hm _ eq_refl Hk).
Qed.

Lemma or_default_given s d : s ≠ "" → or_default (Some s) d = s.
Proof. intros Hs. cbn. by apply String.eqb_neq in Hs as ->. Qed.

Import Samples.

(** *** Missing file *)

(** C5. A media endpoint invoked without a file answers 400 with the
    message naming the missing kind of file (for the image endpoint,
    "No image file uploaded."); the backend is not called, no file is
    removed, and the store is left as it was. *)
Theorem missing_file_is_client_error
    (model : Backend) (ep : Endpoint) (pr : option string) (fs : Files) :
  let out := run (handler model ep (mkRequest None pr)) fs in
  out = (Normal tt,
         mkWorld fs
           [EvRespond 400
              (ErrorBody match ep with
                         | Image => "No image file uploaded."
                         | Document => "No document file uploaded."
                         | Audio => "No audio file uploaded."
                         end)])
  ∧ generate_calls (log out.2) = []
  ∧ unlink_calls (log out.2) = [].
Proof. by destruct ep. Qed.

(** *** Backend failure *)

(** C4 (amended). When the backend call of a media endpoint fails with a
    message, the answer is 500 with exactly that message as its error
    field, and the backend was called once, not again.  When moreover the
    stored file is still in the store as the call resolves, the handler
    removes it in that invocation: [unlinkSync] is called on its path
    once, after the backend call, and the file is gone afterwards. *)
Theorem backend_failure_is_passed_through
    (model : Backend) (ep : Endpoint) (req : Request) (fs : Files)
    (f : File) (content : list byte) (e : Error) :
  file req = Some f →
  fs !! path f = Some content →
  failure (model (mediaCall (media ep) req f content) fs).2 = Some e →
  let fs' := (model (mediaCall (media ep) req f content) fs).1 in
  let out := run (handler model ep req) fs in
  out.1 = Normal tt
  ∧ responses (log out.2) = [(500, ErrorBody (message e))]
  ∧ generate_calls (log out.2) = [mediaCall (media ep) req f content]
  ∧ (is_Some (fs' !! path f) →
     unlink_calls (log out.2) = [path f]
     ∧ (∃ pre post : list Event,
           log out.2 = pre ++ EvUnlink (path f) :: post
           ∧ EvGenerate (mediaCall (media ep) req f content) ∈ pre)
     ∧ files out.2 !! path f = None).
Proof.
  intros Hf Hfs He.
  destruct (model (mediaCall (media ep) req f content) fs)
    as [fs' ans] eqn:Hm.
  cbn in He. cbn zeta. rewrite handler_media.
  rewrite (run_failed _ _ _ _ _ Hf _ _ _ Hfs Hm _ He). cbn.
  split_and!; [done | by destruct (fs' !! path f)
              | by destruct (fs' !! path f) |].
  intros [c Hc]. rewrite Hc, lookup_delete_eq. cbn.
  split_and!; [done | | done].
  eexists [_; _; _], _. split; [done|]. member.
Qed.

Lemma backend_failure_is_passed_through_witness :
  let req := mkRequest (Some clip) None in
  let out := run (handler (failing "quota exceeded") Audio req) store in
  out.1 = Normal tt
  ∧ responses (log out.2) = [(500, ErrorBody "quota exceeded")]
  ∧ generate_calls (log out.2)
    = [mediaCall (media Audio) req clip [Byte.x00; Byte.xff]]
  ∧ unlink_calls (log out.2) = [path clip]
  ∧ files out.2 !! path clip = None.
Proof.
  destruct (backend_failure_is_passed_through (failing "quota exceeded")
              Audio (mkRequest (Some clip) None) store clip
              [Byte.x00; Byte.xff] (mkError "quota exceeded"))
    as (Hdone & Hresp & Hcalls & Hkept).
  - reflexivity.
  - vm_compute. reflexivity.
  - reflexivity.
  - destruct Hkept as (Hunlink & _ & Hgone).
    + vm_compute. eexists. reflexivity.
    + repeat split; assumption.
Defined.

(** C4 as stated fails: the image endpoint receives a file that is in the
    store; the backend fails with "model overloaded" and the file is
    removed by somebody else during the call.  The caller receives 500
    with that message, but the guard of the [catch] block finds no file
    and the handler removes nothing. *)
Lemma failed_call_removes_nothing_when_file_vanishes :
  ¬ (∀ (model : Backend) (ep : Endpoint) (req : Request) (fs : Files)
       (f : File) (content : list byte) (e : Error),
        file req = Some f →
        fs !! path f = Some content →
        failure (model (mediaCall (media ep) req f content) fs).2 = Some e →
        let out := run (handler model ep req) fs in
        responses (log out.2) = [(500, ErrorBody (message e))]
        ∧ unlink_calls (log out.2) = [path f]).
Proof.
  intros H.
  destruct (H (removing "uploads/3f2a" (failing "model overloaded")) Image
              (mkRequest (Some photo) (Some "What is this?")) store photo
              [Byte.x4d; Byte.x61; Byte.x6e] (mkError "model overloaded"))
    as [_ Hunlink].
  - reflexivity.
  - vm_compute. reflexivity.
  - vm_compute. reflexivity.
  - vm_compute in Hunlink. discriminate Hunlink.
Qed.

(** *** Removal of the stored file *)

(** C1 (amended). In an invocation of a media endpoint whose uploaded
    file is in the store on entry and still there when the backend call
    resolves, [fs.unlinkSync] is called on its path exactly once, after
    the backend call, whether the backend answered or failed, and the
    file is gone afterwards.  In an invocation without a file no
    [unlinkSync] call is made. *)
Theorem stored_file_removed_exactly_once
    (model : Backend) (ep : Endpoint) (req : Request) (fs : Files) :
  (∀ f content,
      file req = Some f →
      fs !! path f = Some content →
      is_Some ((model (mediaCall (media ep) req f content) fs).1
                 !! path f) →
      let w := (run (handler model ep req) fs).2 in
      unlink_calls (log w) = [path f]
      ∧ (∃ pre post : list Event,
            log w = pre ++ EvUnlink (path f) :: post
            ∧ EvGenerate (mediaCall (media ep) req f content) ∈ pre)
      ∧ files w !! path f = None)
  ∧ (file req = None →
     unlink_calls (log (run (handler model ep req) fs).2) = []).
Proof.
  rewrite handler_media. split.
  - intros f content Hf Hfs [c Hc].
    destruct (model (mediaCall (media ep) req f content) fs)
      as [fs' ans] eqn:Hm.
    cbn in Hc. cbn zeta.
    destruct (failure ans) as [e|] eqn:He.
    + rewrite (run_failed _ _ _ _ _ Hf _ _ _ Hfs Hm _ He). cbn.
      rewrite Hc, lookup_delete_eq. cbn. split_and!; [done | | done].
      eexists [_; _; _], _. split; [done|]. member.
    + destruct ans as [e|[t|e]]; try discriminate.
      rewrite (run_answered _ _ _ _ _ Hf _ _ _ Hfs Hm _ _ eq_refl Hc). cbn.
      rewrite lookup_delete_eq. split_and!; [done | | done].
      eexists [_; _], _. split; [done|]. member.
  - intros Hf. by rewrite (run_no_file _ _ _ _ Hf).
Qed.

Lemma stored_file_removed_exactly_once_witness :
  let model := answering "A cat" in
  let req := mkRequest (Some photo) None in
  let w := (run (handler model Image req) store).2 in
  unlink_calls (log w) = [path photo]
  ∧ (∃ pre post : list Event,
        log w = pre ++ EvUnlink (path photo) :: post
        ∧ EvGenerate (mediaCall (media Image) req photo
                        [Byte.x4d; Byte.x61; Byte.x6e]) ∈ pre)
  ∧ files w !! path photo = None.
Proof.
  apply (proj1 (stored_file_removed_exactly_once (answering "A cat") Image
                  (mkRequest (Some photo) None) store)
           photo [Byte.x4d; Byte.x61; Byte.x6e]).
  - reflexivity.
  - vm_compute. reflexivity.
  - vm_compute. eexists. reflexivity.
Defined.

(** C1 as stated fails: the audio endpoint receives a file that is in
    the store; the backend fails with "quota exceeded" and the file is
    removed by somebody else during the call.  The guard of the [catch]
    block then finds no file and [unlinkSync] is not called at all. *)
Lemma removal_skipped_when_file_vanishes :
  ¬ (∀ (model : Backend) (ep : Endpoint) (req : Request) (fs : Files)
       (f : File) (content : list byte),
        file req = Some f →
        fs !! path f = Some content →
        unlink_calls (log (run (handler model ep req) fs).2) = [path f]).
Proof.
  intros H.
  specialize (H (removing "uploads/9c41" (failing "quota exceeded")) Audio
                (mkRequest (Some clip) None) store clip
                [Byte.x00; Byte.xff] eq_refl).
  vm_compute in H. specialize (H eq_refl). discriminate H.
Qed.

(** C2 (evaluation at the failing input). The image endpoint receives a
    stored file, the backend answers "A cat", and the file is removed by
    somebody else during the call.  [unlinkSync] in the [try] block
    throws, and the caller receives 500 with the ENOENT message instead
    of the generated text. *)
Example answer_lost_when_unlink_throws :
  let model := removing "uploads/3f2a" (answering "A cat") in
  let req := mkRequest (Some photo) None in
  (model (mediaCall (media Image) req photo [Byte.x4d; Byte.x61; Byte.x6e])
     store).2 = Resolved (Returns "A cat")
  ∧ responses (log (run (generateFromImage model req) store).2)
    = [(500,
        ErrorBody
          "ENOENT: no such file or directory, unlink 'uploads/3f2a'")].
Proof. split; vm_compute; reflexivity. Qed.

(** C3 (evaluation at the failing input). [unlinkSync] on a path that is
    not in the store throws ENOENT; in the [try] block of the document
    endpoint nothing guards the call, so with the file gone the error
    reaches the [catch] block and is sent to the caller. *)
Example unguarded_unlink_throws :
  (unlinkSync "uploads/3f2a" (mkWorld ∅ [])).1
  = Thrown (enoent "unlink" "uploads/3f2a")
  ∧ log (run (generateFromDocument
                (removing "uploads/3f2a" (answering "Summary"))
                (mkRequest (Some photo) (Some "Shorten"))) store).2
    = [EvRead "uploads/3f2a";
       EvGenerate (Parts [Text "Shorten"; InlineData "TWFu" "image/png"]);
       EvUnlink "uploads/3f2a";
       EvExists "uploads/3f2a";
       EvRespond 500
         (ErrorBody
            "ENOENT: no such file or directory, unlink 'uploads/3f2a'")].
Proof. split; vm_compute; reflexivity. Qed.

(** C10. The [catch] block of a media handler, entered in any state with
    any error, calls [unlinkSync] only on the path of the request's file
    and only when that path is in the store at that moment; it
    completes without throwing, so the call never fails for a missing
    file.  Hence no handler invocation ends in an exception. *)
Theorem catch_block_unlink_is_guarded
    (ep : Endpoint) (req : Request) (error : Error) (w : World) :
  let out := handler_catch ep req error w in
  out.1 = Normal tt
  ∧ (∀ p, EvUnlink p ∈ appended w out.2
          ↔ ∃ f, file req = Some f ∧ path f = p ∧ is_Some (files w !! p))
  ∧ (∀ model fs, (run (handler model ep req) fs).1 = Normal tt).
Proof.
  rewrite handler_catch_media. destruct w as [fs0 l]. cbn zeta.
  split_and!.
  - exec. destruct (file req) as [f|]; cbn; [|done].
    by destruct (fs0 !! path f) eqn:Hk; cbn; rewrite ?Hk.
  - intros p. unfold appended. exec.
    destruct (file req) as [f|]; cbn.
    + destruct (fs0 !! path f) eqn:Hk; cbn; rewrite ?Hk; cbn;
        rewrite <- ?app_assoc, drop_app_length; cbn.
      * split.
        -- intros Hin. exists f. member_in Hin. by simplify_eq.
        -- intros (f' & [= <-] & <- & _). member.
      * split; [intros Hin; member_in Hin|].
        intros (f' & [= <-] & <- & Hs). rewrite Hk in Hs.
        by destruct Hs.
    + rewrite drop_app_length. split; [intros Hin; member_in Hin|].
      by intros (f' & [=] & _).
  - intros model fs. rewrite handler_media.
    destruct (file req) as [f|] eqn:Hf;
      [|by rewrite (run_no_file _ _ _ _ Hf)].
    destruct (fs !! path f) as [content|] eqn:Hfs;
      [|by rewrite (run_unreadable _ _ _ _ _ Hf Hfs)].
    destruct (model (mediaCall (media ep) req f content) fs)
      as [fs' ans] eqn:Hm.
    destruct (failure ans) as [e|] eqn:He;
      [by rewrite (run_failed _ _ _ _ _ Hf _ _ _ Hfs Hm _ He)|].
    destruct ans as [e|[t|e]]; try discriminate.
    destruct (fs' !! path f) as [c|] eqn:Hk.
    + by rewrite (run_answered _ _ _ _ _ Hf _ _ _ Hfs Hm _ _ eq_refl Hk).
    + by rewrite (run_answered_gone _ _ _ _ _ Hf _ _ _ Hfs Hm _ eq_refl Hk).
Qed.

(** *** Prompt and parts *)

(** C6. A media endpoint hands the backend one prompt text: the caller's
    prompt when it is a non-empty string, and the endpoint's default
    ("Describe this image", "Summarize this document", "Transcribe this
    audio") when the prompt is absent or empty; never a combination of
    the two.  The text endpoint hands the backend the prompt as it came,
    absent or empty included (and makes no call at all for a request
    without a body). *)
Theorem prompt_or_default (model : Backend) (fs : Files) :
  (∀ ep req f content,
      file req = Some f →
      fs !! path f = Some content →
      ∃ s part,
        generate_calls (log (run (handler model ep req) fs).2)
        = [Parts [Text s; part]]
        ∧ (prompt req = None ∨ prompt req = Some "" →
           s = match ep with
               | Image => "Describe this image"
               | Document => "Summarize this document"
               | Audio => "Transcribe this audio"
               end)
        ∧ (∀ given, prompt req = Some given → given ≠ "" → s = given))
  ∧ (∀ parsed,
        generate_calls (log (run (generateText model parsed) fs).2)
        = match parsed with
          | Some req => [Prompt (prompt req)]
          | None => []
          end).
Proof.
  split.
  - intros ep req f content Hf Hfs.
    rewrite handler_media, generate_calls_run, Hf, Hfs.
    eexists _, _. split; [reflexivity|]. split.
    + intros [-> | ->]; by destruct ep.
    + intros given -> Hne. by apply or_default_given.
  - intros [req|]; exec; [|done].
    by destruct (model (Prompt (prompt req)) fs) as [fs' [e|[t|e]]].
Qed.

Lemma prompt_or_default_witness :
  ∃ s part,
    generate_calls
      (log (run (handler (answering "A cat") Document
                   (mkRequest (Some photo) (Some ""))) store).2)
    = [Parts [Text s; part]]
    ∧ s = "Summarize this document".
Proof.
  destruct (proj1 (prompt_or_default (answering "A cat") store) Document
              (mkRequest (Some photo) (Some "")) photo
              [Byte.x4d; Byte.x61; Byte.x6e])
    as (s & part & Hcalls & Hdefault & _).
  - reflexivity.
  - vm_compute. reflexivity.
  - exists s, part. split; [exact Hcalls|].
    apply Hdefault. right. reflexivity.
Defined.



(** C8. Building the part of a stored file is lossless and
    deterministic: for any content (the empty one included) and any MIME
    type, [fileToGenerativePart] returns the inline-data part with that
    MIME type whose data base64-decodes to exactly the content, and it
    returns the same part wherever and whenever the same content is
    read with the same MIME type. *)
Theorem fileToGenerativePart_lossless
    (fs : Files) (l : list Event) (p mimeType : string)
    (content : list byte) :
  fs !! p = Some content →
  ∃ data,
    (fileToGenerativePart p mimeType (mkWorld fs l)).1
    = Normal (InlineData data mimeType)
    ∧ Base64.decode data = Some content
    ∧ (∀ fs2 l2 p2,
          fs2 !! p2 = Some content →
          (fileToGenerativePart p2 mimeType (mkWorld fs2 l2)).1
          = Normal (InlineData data mimeType)).
Proof.
  intros Hfs. exists (Base64.encode content). split_and!.
  - exec. by use Hfs.
  - apply Base64Facts.decode_encode.
  - intros fs2 l2 p2 Hfs2. exec. by use Hfs2.
Qed.

Lemma fileToGenerativePart_lossless_witness :
  ∃ data,
    (fileToGenerativePart "uploads/empty" "text/plain"
       (mkWorld {[ "uploads/empty" := [] ]} [])).1
    = Normal (InlineData data "text/plain")
    ∧ Base64.decode data = Some []
    ∧ (∀ fs2 l2 p2,
          fs2 !! p2 = Some [] →
          (fileToGenerativePart p2 "text/plain" (mkWorld fs2 l2)).1
          = Normal (InlineData data "text/plain")).
Proof.
  apply (fileToGenerativePart_lossless {[ "uploads/empty" := [] ]} []
           "uploads/empty" "text/plain" []).
  vm_compute. reflexivity.
Defined.

(** *** One handler, three instances *)

(** C9. The image, document and audio routes are the one generic route
    instantiated with their field name, default prompt and missing-file
    message, and so are their handlers.  Hence, for any request and
    state: with a file and a non-empty prompt any two handlers behave
    identically; with a file and no prompt a handler behaves as any
    other does when given the first one's default as the prompt; and
    without a file each answers 400 with its own message and does
    nothing else. *)
Theorem media_handlers_are_one_handler
    (model : Backend) (RawRequest : Type)
    (single : string → RawRequest → M Request) :
  (∀ ep raw w,
      route model RawRequest single ep raw w
      = mediaRoute model RawRequest single (media ep) raw w)
  ∧ (∀ ep req w,
        handler model ep req w = generateFromMedia model (media ep) req w)
  ∧ (∀ ep1 ep2 f given w,
        given ≠ "" →
        handler model ep1 (mkRequest (Some f) (Some given)) w
        = handler model ep2 (mkRequest (Some f) (Some given)) w)
  ∧ (∀ ep1 ep2 f pr w,
        pr = None ∨ pr = Some "" →
        handler model ep1 (mkRequest (Some f) pr) w
        = handler model ep2
            (mkRequest (Some f) (Some (defaultPrompt (media ep1)))) w)
  ∧ (∀ ep pr w,
        handler model ep (mkRequest None pr) w
        = (Normal tt,
           mkWorld (files w)
             (log w ++ [EvRespond 400 (ErrorBody (missingFile (media ep)))]))).
Proof.
  split_and!.
  - by intros [].
  - intros. by rewrite handler_media.
  - intros ep1 ep2 f given w Hne. rewrite !handler_media.
    unfold generateFromMedia. cbn [file prompt].
    by rewrite !or_default_given.
  - intros ep1 ep2 f pr w Hpr. rewrite !handler_media.
    unfold generateFromMedia. cbn [file prompt].
    replace (or_default pr (defaultPrompt (media ep1)))
      with (defaultPrompt (media ep1)) by (by destruct Hpr as [-> | ->]).
    by rewrite or_default_given by (by destruct ep1).
  - intros ep pr w. rewrite handler_media. by exec.
Qed.

Lemma media_handlers_are_one_handler_witness :
  handler (answering "ok") Image (mkRequest (Some photo) (Some "What?"))
    (mkWorld store [])
  = handler (answering "ok") Audio (mkRequest (Some photo) (Some "What?"))
      (mkWorld store []).
Proof.
  apply (proj1 (proj2 (proj2
           (media_handlers_are_one_handler (answering "ok") unit
              (fun _ _ => mret (mkRequest None None)))))).
  discriminate.
Defined.

End GatewayFacts.


(** ** All runs of the handlers *)

Module HandlerFacts.
Import Js Gateway Observe Samples Base64Facts GatewayFacts.

Lemma media_run model m req fs :
  MediaRun model m req fs (run (generateFromMedia model m req) fs).
Proof.
  destruct (file req) as [f|] eqn:Hf;
    [|rewrite (run_no_file _ _ _ _ Hf); by constructor].
  destruct (fs !! path f) as [content|] eqn:Hfs;
    [|rewrite (run_unreadable _ _ _ _ _ Hf Hfs); by constructor].
  destruct (model (mediaCall m req f content) fs) as [fs' ans] eqn:Hm.
  destruct (failure ans) as [e|] eqn:He.
  { rewrite (run_failed _ _ _ _ _ Hf _ _ _ Hfs Hm _ He).
    destruct (fs' !! path f) as [c|] eqn:Hk; cbn.
    - by eapply RunFailedKept.
    - rewrite (delete_id _ _ Hk). by eapply RunFailedGone. }
  destruct ans as [e|[t|e]]; try discriminate.
  destruct (fs' !! path f) as [c|] eqn:Hk.
  - rewrite (run_answered _ _ _ _ _ Hf _ _ _ Hfs Hm _ _ eq_refl Hk).
    by eapply RunAnswered.
  - rewrite (run_answered_gone _ _ _ _ _ Hf _ _ _ Hfs Hm _ eq_refl Hk).
    by eapply RunAnsweredGone.
Qed.

(** Case analysis on the run of a handler. *)
Ltac by_run model ep req fs :=
  rewrite ?handler_media;
  let R := fresh "R" in
  pose proof (media_run model (media ep) req fs) as R;
  destruct R.

(** *** The text endpoint *)

(** X1. When the backend answers the text endpoint with a text, the
    handler completes and the caller receives 200 with exactly that text
    as the one response.  (The backend is called only for a request with
    a body.) *)
Theorem generateText_answers
    (model : Backend) (req : Request) (fs : Files) (t : string) :
  (model (Prompt (prompt req)) fs).2 = Resolved (Returns t) →
  let out := run (generateText model (Some req)) fs in
  out.1 = Normal tt ∧ responses (log out.2) = [(200, TextBody t)].
Proof.
  intros Hm. exec.
  destruct (model (Prompt (prompt req)) fs) as [fs' ans]. cbn in Hm.
  by subst ans.
Qed.

Lemma generateText_answers_witness :
  let out :=
    run (generateText (answering "Hi there")
           (Some (mkRequest None (Some "Hello")))) ∅ in
  out.1 = Normal tt ∧ responses (log out.2) = [(200, TextBody "Hi there")].
Proof.
  apply (generateText_answers (answering "Hi there")
           (mkRequest None (Some "Hello")) ∅ "Hi there").
  reflexivity.
Defined.

(** X2. When the backend call of the text endpoint is rejected, or reading
    the text of its response throws, the handler completes, the caller
    receives 500 with the error's message as the one response, and the
    backend was called once. *)
Theorem generateText_failure
    (model : Backend) (req : Request) (fs : Files) (e : Error) :
  failure (model (Prompt (prompt req)) fs).2 = Some e →
  let out := run (generateText model (Some req)) fs in
  out.1 = Normal tt
  ∧ responses (log out.2) = [(500, ErrorBody (message e))]
  ∧ generate_calls (log out.2) = [Prompt (prompt req)].
Proof.
  intros Hm. exec.
  destruct (model (Prompt (prompt req)) fs) as [fs' [e'|[t|e']]];
    cbn in Hm; by simplify_eq.
Qed.

Lemma generateText_failure_witness :
  let out :=
    run (generateText (failing "API key not valid")
           (Some (mkRequest None None))) ∅ in
  out.1 = Normal tt
  ∧ responses (log out.2) = [(500, ErrorBody "API key not valid")]
  ∧ generate_calls (log out.2) = [Prompt None].
Proof.
  apply (generateText_failure (failing "API key not valid")
           (mkRequest None None) ∅ (mkError "API key not valid")).
  reflexivity.
Defined.

(** X3. The text endpoint makes no file-system call, whatever the request
    (an attached file included, a missing body included) and whatever the
    backend does: the store after the run is the store as it was when the
    backend call resolved, and the store on entry when no call was
    made. *)
Theorem generateText_leaves_files_alone
    (model : Backend) (parsed : option Request) (fs : Files) :
  let out := run (generateText model parsed) fs in
  fs_calls (log out.2) = []
  ∧ files out.2
    = match parsed with
      | Some req => (model (Prompt (prompt req)) fs).1
      | None => fs
      end.
Proof.
  destruct parsed as [req|]; exec; [|done].
  by destruct (model (Prompt (prompt req)) fs) as [fs' [e|[t|e]]].
Qed.

(** *** The media endpoints *)

(** X4. When a media endpoint receives a file that is in the store, the
    backend answers with a text and the file is still there, the handler
    reads the file, calls the backend, removes the file and then sends
    200 with exactly that text; nothing else happens. *)
Theorem media_answer_is_delivered
    (model : Backend) (ep : Endpoint) (req : Request) (fs : Files)
    (f : File) (content : list byte) (t : string) :
  file req = Some f →
  fs !! path f = Some content →
  (model (mediaCall (media ep) req f content) fs).2 = Resolved (Returns t) →
  is_Some ((model (mediaCall (media ep) req f content) fs).1 !! path f) →
  let out := run (handler model ep req) fs in
  out.1 = Normal tt
  ∧ log out.2
    = [EvRead (path f); EvGenerate (mediaCall (media ep) req f content);
       EvUnlink (path f); EvRespond 200 (TextBody t)].
Proof.
  intros Hf Hfs Hans [c Hc].
  destruct (model (mediaCall (media ep) req f content) fs)
    as [fs' ans] eqn:Hm.
  cbn in Hans, Hc. subst ans. rewrite handler_media.
  by rewrite (run_answered _ _ _ _ _ Hf _ _ _ Hfs Hm _ _ eq_refl Hc).
Qed.

Lemma media_answer_is_delivered_witness :
  let req := mkRequest (Some photo) (Some "What is this?") in
  let out := run (handler (answering "A cat") Image req) store in
  out.1 = Normal tt
  ∧ log out.2
    = [EvRead (path photo);
       EvGenerate (mediaCall (media Image) req photo
                     [Byte.x4d; Byte.x61; Byte.x6e]);
       EvUnlink (path photo); EvRespond 200 (TextBody "A cat")].
Proof.
  apply (media_answer_is_delivered (answering "A cat") Image
           (mkRequest (Some photo) (Some "What is this?")) store photo
           [Byte.x4d; Byte.x61; Byte.x6e] "A cat").
  - reflexivity.
  - vm_compute. reflexivity.
  - reflexivity.
  - vm_compute. eexists. reflexivity.
Defined.

(** X5. A media endpoint sends 200 only with a text the backend returned
    for the call made from the stored file, and only when the file was
    still in the store when that call resolved. *)
Theorem media_200_only_from_backend
    (model : Backend) (ep : Endpoint) (req : Request) (fs : Files)
    (b : Body) :
  (200, b) ∈ responses (log (run (handler model ep req) fs).2) →
  ∃ f content t,
    file req = Some f
    ∧ fs !! path f = Some content
    ∧ (model (mediaCall (media ep) req f content) fs).2
      = Resolved (Returns t)
    ∧ b = TextBody t
    ∧ is_Some ((model (mediaCall (media ep) req f content) fs).1
                 !! path f).
Proof.
  by_run model ep req fs; cbn; intros Hin; member_in Hin.
  simplify_eq. eexists _, _, _.
  match goal with Hm : model _ _ = _ |- _ => rewrite Hm end.
  split_and!; try done; by eexists.
Qed.

Lemma media_200_only_from_backend_witness :
  ∃ f content t,
    Some photo = Some f
    ∧ store !! path f = Some content
    ∧ (answering "A cat"
         (mediaCall (media Image) (mkRequest (Some photo) None) f content)
         store).2 = Resolved (Returns t)
    ∧ TextBody "A cat" = TextBody t
    ∧ is_Some ((answering "A cat"
                  (mediaCall (media Image) (mkRequest (Some photo) None)
                     f content) store).1 !! path f).
Proof.
  apply (media_200_only_from_backend (answering "A cat") Image
           (mkRequest (Some photo) None) store (TextBody "A cat")).
  vm_compute. apply list_elem_of_here.
Defined.

(** X6. When the file a media endpoint received is not in the store on
    entry, reading it throws: the caller receives 500 with the ENOENT
    message of the failed open, the backend is not called, nothing is
    removed and the store is unchanged. *)
Theorem media_unreadable_file
    (model : Backend) (ep : Endpoint) (req : Request) (fs : Files)
    (f : File) :
  file req = Some f →
  fs !! path f = None →
  let out := run (handler model ep req) fs in
  out.1 = Normal tt
  ∧ responses (log out.2)
    = [(500,
        ErrorBody ("ENOENT: no such file or directory, open '"
                   +:+ path f +:+ "'"))]
  ∧ generate_calls (log out.2) = []
  ∧ unlink_calls (log out.2) = []
  ∧ files out.2 = fs.
Proof.
  intros Hf Hfs. rewrite handler_media.
  by rewrite (run_unreadable _ _ _ _ _ Hf Hfs).
Qed.

Lemma media_unreadable_file_witness :
  let out :=
    run (handler (answering "A cat") Document (mkRequest (Some photo) None))
      ∅ in
  out.1 = Normal tt
  ∧ responses (log out.2)
    = [(500,
        ErrorBody ("ENOENT: no such file or directory, open '"
                   +:+ path photo +:+ "'"))]
  ∧ generate_calls (log out.2) = []
  ∧ unlink_calls (log out.2) = []
  ∧ files out.2 = ∅.
Proof.
  apply (media_unreadable_file (answering "A cat") Document
           (mkRequest (Some photo) None) ∅ photo).
  - reflexivity.
  - reflexivity.
Defined.

(** X7. Every run of a media handler, and every run of the text handler
    on a request with a body, sends exactly one response, and the response
    is the last thing the handler does.  On a request without a body the
    text handler sends nothing: line 38 throws before the [try], and the
    handler ends with that error, having called nothing. *)
Theorem one_response_at_the_end
    (model : Backend) (req : Request) (fs : Files) :
  (∀ ep, ∃ pre status body,
      log (run (handler model ep req) fs).2
      = pre ++ [EvRespond status body]
      ∧ responses pre = [])
  ∧ (∃ pre status body,
        log (run (generateText model (Some req)) fs).2
        = pre ++ [EvRespond status body]
        ∧ responses pre = [])
  ∧ (∃ error,
        run (generateText model None) fs = (Thrown error, mkWorld fs [])).
Proof.
  split_and!.
  - intros ep. by_run model ep req fs; cbn.
    + by eexists [], _, _.
    + by eexists [_; _], _, _.
    + by eexists [_; _; _; _], _, _.
    + by eexists [_; _; _], _, _.
    + by eexists [_; _; _], _, _.
    + by eexists [_; _; _; _], _, _.
  - exec.
    destruct (model (Prompt (prompt req)) fs) as [fs' [e|[t|e]]]; cbn;
      by eexists [_], _, _.
  - by eexists.
Qed.

(** X8. A media endpoint answers 400 exactly when the request has no
    file; with a file the status is 200 or 500. *)
Theorem media_status_400_iff_no_file
    (model : Backend) (ep : Endpoint) (req : Request) (fs : Files) :
  ∃ status body,
    responses (log (run (handler model ep req) fs).2) = [(status, body)]
    ∧ (status = 400 ↔ file req = None)
    ∧ (status = 200 ∨ status = 400 ∨ status = 500).
Proof.
  by_run model ep req fs; cbn; eexists _, _;
    (split; [reflexivity|]); split; try tauto; try (split; congruence);
    split; first [discriminate | congruence].
Qed.

(** X9. The only effect of a media handler on the store is that the
    uploaded file is removed: after any run with a file, the store is the
    store as others last left it without the file's path, so the file is
    never left behind and no other path is touched; after a run without a
    file the store is unchanged. *)
Theorem media_store_after_run
    (model : Backend) (ep : Endpoint) (req : Request) (fs : Files) :
  let after := files (run (handler model ep req) fs).2 in
  after
  = match file req with
    | Some f => delete (path f) (resumed model (media ep) req fs)
    | None => fs
    end
  ∧ (∀ f, file req = Some f → after !! path f = None)
  ∧ (∀ f q, file req = Some f → q ≠ path f →
            after !! q = resumed model (media ep) req fs !! q).
Proof.
  cbn zeta.
  assert (files (run (handler model ep req) fs).2
          = match file req with
            | Some f => delete (path f) (resumed model (media ep) req fs)
            | None => fs
            end) as ->.
  { unfold resumed.
    by_run model ep req fs; cbn;
      repeat match goal with
             | H : file req = _ |- _ => rewrite H
             | H : fs !! _ = _ |- _ => rewrite H
             | H : model _ _ = _ |- _ => rewrite H
             end; cbn; try done;
      symmetry; by apply delete_id. }
  split_and!; [done | |].
  - intros f ->. apply lookup_delete_eq.
  - intros f q -> Hq. by apply lookup_delete_ne.
Qed.

Lemma media_store_after_run_witness :
  let after :=
    files (run (handler (failing "quota exceeded") Audio
                  (mkRequest (Some clip) None)) store).2 in
  after !! "uploads/9c41" = None
  ∧ after !! "uploads/3f2a" = Some [Byte.x4d; Byte.x61; Byte.x6e].
Proof.
  destruct (media_store_after_run (failing "quota exceeded") Audio
              (mkRequest (Some clip) None) store) as (_ & Hgone & Hkept).
  split.
  - apply (Hgone clip). reflexivity.
  - rewrite (Hkept clip "uploads/3f2a"); [|reflexivity|discriminate].
    vm_compute. reflexivity.
Defined.

(** X10. Every file-system call of a media handler is on the path of the
    request's own file, and the handler calls [unlinkSync] at most
    once. *)
Theorem media_fs_calls_on_own_file
    (model : Backend) (ep : Endpoint) (req : Request) (fs : Files) :
  let l := log (run (handler model ep req) fs).2 in
  (∀ p, p ∈ fs_calls l → ∃ f, file req = Some f ∧ p = path f)
  ∧ (length (unlink_calls l) ≤ 1)%nat.
Proof.
  cbn zeta. by_run model ep req fs; cbn; (split; [|lia]);
    intros p Hin; member_in Hin; subst p; eauto.
Qed.

Lemma media_fs_calls_on_own_file_witness :
  ∃ f, Some photo = Some f ∧ "uploads/3f2a" = path f.
Proof.
  apply (proj1 (media_fs_calls_on_own_file (answering "A cat") Image
                  (mkRequest (Some photo) None) store) "uploads/3f2a").
  vm_compute. apply list_elem_of_here.
Defined.

(** X11. A media handler calls the backend at most once, and it calls it
    exactly when the request has a file that is in the store on entry. *)
Theorem media_backend_called_iff_readable
    (model : Backend) (ep : Endpoint) (req : Request) (fs : Files) :
  let calls := generate_calls (log (run (handler model ep req) fs).2) in
  (length calls ≤ 1)%nat
  ∧ (calls ≠ [] ↔ ∃ f, file req = Some f ∧ is_Some (fs !! path f)).
Proof.
  cbn zeta. rewrite handler_media, generate_calls_run.
  destruct (file req) as [f|]; cbn.
  - destruct (fs !! path f) as [content|] eqn:Hfs; cbn.
    + split; [lia|]. split; [|done]. intros _. exists f. by rewrite Hfs.
    + split; [lia|]. split; [done|].
      intros (f' & [= <-] & Hs). rewrite Hfs in Hs. by destruct Hs.
  - split; [lia|]. split; [done|]. by intros (f' & [=] & _).
Qed.

(** X12. With a file attached, the first thing a media handler does is
    read that file, and it reads it only once; without a file it reads
    nothing. *)
Theorem media_reads_file_first
    (model : Backend) (ep : Endpoint) (req : Request) (fs : Files) :
  let l := log (run (handler model ep req) fs).2 in
  match file req with
  | Some f => ∃ rest, l = EvRead (path f) :: rest ∧ read_calls rest = []
  | None => read_calls l = []
  end.
Proof.
  cbn zeta. by_run model ep req fs;
    repeat match goal with H : file req = _ |- _ => rewrite H end;
    cbn; try done; by eexists.
Qed.

(** *** Building the inline part *)

Lemma encode_length (bs : list byte) :
  String.length (Base64.encode bs) = 4 * ((length bs + 2) / 3).
Proof.
  induction bs as [|a|a b|a b c bs IH] using list_ind3;
    cbn [Base64.encode String.length length]; try reflexivity.
  rewrite IH.
  replace (S (S (S (length bs))) + 2) with (1 * 3 + (length bs + 2)) by lia.
  rewrite Nat.div_add_l by lia. lia.
Qed.

Lemma digit_in_alphabet n : (n < 64)%N → In (Base64.digit n) Base64.alphabet.
Proof.
  intros Hn.
  pose proof (below64_spec
    (fun k => existsb (Ascii.eqb (Base64.digit k)) Base64.alphabet)
    eq_refl n Hn) as Hk.
  cbn beta in Hk. apply existsb_exists in Hk as (c & Hc & Heq).
  by apply Ascii.eqb_eq in Heq as ->.
Qed.

Lemma encode_charset (bs : list byte) :
  Forall (fun c => c = Base64.pad ∨ In c Base64.alphabet)
    (list_ascii_of_string (Base64.encode bs)).
Proof.
  induction bs as [|a|a b|a b c bs IH] using list_ind3;
    cbn [Base64.encode list_ascii_of_string];
    repeat first
      [ exact IH
      | apply Forall_nil_2
      | apply Forall_cons_2;
        [ first
            [ by left
            | right; apply digit_in_alphabet;
              first [ apply sextet4_lt
                    | apply sextet1_lt, to_N_lt
                    | apply sextet2_lt; first [apply to_N_lt | lia]
                    | apply sextet3_lt; first [apply to_N_lt | lia] ] ]
        | ] ].
Qed.

(** X13. [fileToGenerativePart] throws exactly when the path is not in the
    store, with the ENOENT message of the failed open; whether it returns
    or throws, it leaves the store as it was and makes one call, the
    read. *)
Theorem fileToGenerativePart_throws_iff_missing
    (p mimeType : string) (w : World) :
  let out := fileToGenerativePart p mimeType w in
  files out.2 = files w
  ∧ log out.2 = log w ++ [EvRead p]
  ∧ (files w !! p = None →
     out.1 = Thrown (mkError ("ENOENT: no such file or directory, open '"
                              +:+ p +:+ "'")))
  ∧ (is_Some (files w !! p) → ∃ part, out.1 = Normal part).
Proof.
  destruct w as [fs l]. exec.
  destruct (fs !! p) as [content|] eqn:Hk; cbn; split_and!; try done;
    first [by eexists | by intros [? [=]]].
Qed.

Lemma fileToGenerativePart_throws_iff_missing_witness :
  (fileToGenerativePart "uploads/none" "image/png" (mkWorld store [])).1
  = Thrown (mkError ("ENOENT: no such file or directory, open '"
                     +:+ "uploads/none" +:+ "'")).
Proof.
  apply (fileToGenerativePart_throws_iff_missing "uploads/none" "image/png"
           (mkWorld store [])).
  vm_compute. reflexivity.
Defined.

(** X14. The part determines what it was built from: two stored files
    give the same part exactly when they have the same content and were
    given the same MIME type. *)
Theorem fileToGenerativePart_injective
    (fs1 fs2 : Files) (l1 l2 : list Event) (p1 p2 mime1 mime2 : string)
    (content1 content2 : list byte) :
  fs1 !! p1 = Some content1 →
  fs2 !! p2 = Some content2 →
  (fileToGenerativePart p1 mime1 (mkWorld fs1 l1)).1
  = (fileToGenerativePart p2 mime2 (mkWorld fs2 l2)).1
  ↔ content1 = content2 ∧ mime1 = mime2.
Proof.
  intros H1 H2. exec. rewrite H1, H2. cbn. split.
  - intros [= Henc ->]. split; [|done].
    apply (f_equal Base64.decode) in Henc.
    rewrite !decode_encode in Henc. by simplify_eq.
  - by intros [-> ->].
Qed.

Lemma fileToGenerativePart_injective_witness :
  (fileToGenerativePart "uploads/3f2a" "image/png" (mkWorld store [])).1
  = (fileToGenerativePart "uploads/9c41" "image/png" (mkWorld store [])).1
  ↔ [Byte.x4d; Byte.x61; Byte.x6e] = [Byte.x00; Byte.xff]
    ∧ "image/png" = "image/png".
Proof.
  apply (fileToGenerativePart_injective store store [] []
           "uploads/3f2a" "uploads/9c41" "image/png" "image/png").
  - vm_compute. reflexivity.
  - vm_compute. reflexivity.
Defined.

(** X15. The data of the part built from a stored file of [n] bytes has
    [4 * ceil(n / 3)] characters, each of them a digit of the base64
    alphabet or the padding character. *)
Theorem fileToGenerativePart_data_shape
    (fs : Files) (l : list Event) (p mimeType : string)
    (content : list byte) :
  fs !! p = Some content →
  ∃ data,
    (fileToGenerativePart p mimeType (mkWorld fs l)).1
    = Normal (InlineData data mimeType)
    ∧ String.length data = 4 * ((length content + 2) / 3)
    ∧ Forall (fun c => c = "="%char ∨ In c Base64.alphabet)
        (list_ascii_of_string data).
Proof.
  intros Hfs. exists (Base64.encode content). split_and!.
  - exec. by use Hfs.
  - apply encode_length.
  - apply encode_charset.
Qed.

Lemma fileToGenerativePart_data_shape_witness :
  ∃ data,
    (fileToGenerativePart "uploads/9c41" "audio/mpeg" (mkWorld store [])).1
    = Normal (InlineData data "audio/mpeg")
    ∧ String.length data = 4 * ((2 + 2) / 3)
    ∧ Forall (fun c => c = "="%char ∨ In c Base64.alphabet)
        (list_ascii_of_string data).
Proof.
  apply (fileToGenerativePart_data_shape store [] "uploads/9c41"
           "audio/mpeg" [Byte.x00; Byte.xff]).
  vm_compute. reflexivity.
Defined.

End HandlerFacts.
